(** * Password_Strength_Checker: the classification-and-override engine

    Shallow embedding of [predict_password_strength] (src/app.py, lines 25-89).

    - A password is a Python [str], modelled as a list of characters of a type
      [C] that carries Python's per-character predicates [str.islower],
      [str.isupper], [str.isdigit] and [str.isalnum] (type class [PyChar]).
      [len(password)] counts characters, i.e. list length.
    - The two loaded artefacts ([clf], [vectorizer]) are opaque: a record
      [Models] with [transform], [predict] and [predict_proba].
    - The numeric feature scalars are modelled as rationals [Q]; Python's true
      division [/] is modelled by exact rational division.
    - Labels are the integers the code compares and returns (0, 1, 2).
    - Calls to the external capabilities are recorded in a log, threaded by a
      small state monad, so that "the classifier is never invoked" is a
      statement about the log. *)

From Stdlib Require Import String Ascii ZArith QArith Lia.
From Stdlib Require Import List.
From Stdlib Require Import DecimalString.
Import ListNotations.
Delimit Scope string_scope with string.
Open Scope nat_scope.

(** ** Characters: Python's [str] predicates *)

Class PyChar (C : Type) := {
  islower : C -> bool;
  isupper : C -> bool;
  isdigit : C -> bool;
  isalnum : C -> bool
}.

(** The ASCII instance: on ASCII characters Python's predicates are the
    usual ranges. *)
Definition ascii_in (lo hi : nat) (c : ascii) : bool :=
  Nat.leb lo (nat_of_ascii c) && Nat.leb (nat_of_ascii c) hi.

#[global] Instance PyChar_ascii : PyChar ascii := {
  islower := ascii_in 97 122;
  isupper := ascii_in 65 90;
  isdigit := ascii_in 48 57;
  isalnum := fun c => ascii_in 97 122 c || ascii_in 65 90 c || ascii_in 48 57 c
}.

(** ** The external artefacts *)

Record Models (C : Type) := {
  transform : list C -> list Q;          (* vectorizer.transform(...).toarray(), flattened *)
  predict : list Q -> Z;                 (* clf.predict(new_matrix)[0] *)
  predict_proba : list Q -> list Q       (* clf.predict_proba(new_matrix)[0] *)
}.
Arguments transform {C} _ _.
Arguments predict {C} _ _.
Arguments predict_proba {C} _ _.

(** Calls to the artefacts, as recorded in the log. *)
Inductive Event (C : Type) :=
| ETransform (pw : list C)
| EPredict (x : list Q)
| EPredictProba (x : list Q).
Arguments ETransform {C} _.
Arguments EPredict {C} _.
Arguments EPredictProba {C} _.

(** ** A logging state monad *)

Definition M (C A : Type) : Type := list (Event C) -> A * list (Event C).

Definition ret {C A} (a : A) : M C A := fun log => (a, log).

Definition bind {C A B} (m : M C A) (f : A -> M C B) : M C B :=
  fun log => let (a, log') := m log in f a log'.

Notation "x <- m ;; k" := (bind m (fun x => k))
  (at level 61, m at next level, right associativity).

Section Engine.
Context {C : Type} `{PyChar C} (models : Models C).

Definition call_transform (pw : list C) : M C (list Q) :=
  fun log => (transform models pw, log ++ [ETransform pw]).

Definition call_predict (x : list Q) : M C Z :=
  fun log => (predict models x, log ++ [EPredict x]).

Definition call_predict_proba (x : list Q) : M C (list Q) :=
  fun log => (predict_proba models x, log ++ [EPredictProba x]).

(** [sum(1 for c in password if p(c))] *)
Definition count (p : C -> bool) (pw : list C) : nat :=
  length (filter p pw).

(** [sum(...) / length_pass] *)
Definition frac (p : C -> bool) (pw : list C) : Q :=
  inject_Z (Z.of_nat (count p pw)) / inject_Z (Z.of_nat (length pw)).

(** [np.append(sample_matrix.toarray(), (length_pass, lower, upper, digit))] *)
Definition build_features (vec : list Q) (pw : list C) : list Q :=
  vec ++ [inject_Z (Z.of_nat (length pw));
          frac islower pw; frac isupper pw; frac isdigit pw].

(** [char_types = sum([has_lower, has_upper, has_digit, has_special])] *)
Definition char_types (pw : list C) : nat :=
  let has_lower := existsb islower pw in
  let has_upper := existsb isupper pw in
  let has_digit := existsb isdigit pw in
  let has_special := existsb (fun c => negb (isalnum c)) pw in
  (if has_lower then 1 else 0) + (if has_upper then 1 else 0)
  + (if has_digit then 1 else 0) + (if has_special then 1 else 0).

Definition show_nat (n : nat) : string :=
  NilZero.string_of_uint (Nat.to_uint n).

(** The rule chain (lines 60-89): first matching rule wins. *)
Definition apply_rules (length_pass : nat) (ct : nat) (result : Z) : Z * string :=
  if Nat.leb length_pass 6 then (0%Z, "Too short (≤6 characters)"%string)
  else if Nat.leb length_pass 12 && Z.eqb result 2 then
    (1%Z, "Too short to be strong (≤12 chars)"%string)
  else if Nat.leb 18 length_pass && Nat.leb 3 ct then
    (2%Z, ("Long password (" ++ show_nat length_pass ++ " chars) with good diversity ("
          ++ show_nat ct ++ "/4 types)")%string)
  else if Nat.leb 30 length_pass then (2%Z, "Very long password (≥30 chars)"%string)
  else if Nat.leb 15 length_pass && Z.eqb result 0 then
    (1%Z, "Too long to be weak (≥15 chars)"%string)
  else (result, "Model prediction"%string).

(** [predict_password_strength] (lines 25-89). *)
Definition predict_password_strength_m (password : list C)
  : M C (Z * list Q * string) :=
  if Nat.eqb (length password) 0 then ret (0%Z, [1; 0; 0]%Q, "Empty password"%string)
  else
    let length_pass := length password in
    if Nat.eqb length_pass 0 then ret (0%Z, [1; 0; 0]%Q, "Empty password"%string)
    else
      sample <- call_transform password ;;
      let new_matrix := build_features sample password in
      result <- call_predict new_matrix ;;
      probabilities <- call_predict_proba new_matrix ;;
      let ct := char_types password in
      let (label, reason) := apply_rules length_pass ct result in
      ret (label, probabilities, reason).

(** Running one call from an empty log: the result and the calls made. *)
Definition run (password : list C) : (Z * list Q * string) * list (Event C) :=
  predict_password_strength_m password [].

Definition classify (password : list C) : Z * list Q * string :=
  fst (run password).

Definition calls (password : list C) : list (Event C) :=
  snd (run password).

Definition label_of (r : Z * list Q * string) : Z := fst (fst r).
Definition probs_of (r : Z * list Q * string) : list Q := snd (fst r).
Definition reason_of (r : Z * list Q * string) : string := snd r.

(** The feature vector handed to the classifier and its raw label. *)
Definition features (password : list C) : list Q :=
  build_features (transform models password) password.

Definition raw_label (password : list C) : Z :=
  predict models (features password).

End Engine.

(** ** The page handler of the "Analyze Password" button (lines 232-360) *)

(** Python's [l[i]] on a list: negative indices count from the end; out of
    range raises [IndexError] ([None]). *)
Definition py_index {A} (l : list A) (i : Z) : option A :=
  let n := Z.of_nat (length l) in
  if (0 <=? i)%Z && (i <? n)%Z then nth_error l (Z.to_nat i)
  else if (- n <=? i)%Z && (i <? 0)%Z then nth_error l (Z.to_nat (n + i))
  else None.

Definition strength_names : list string := ["Weak"; "Normal"; "Strong"]%string.
Definition strength_colors : list string := ["weak"; "normal"; "strong"]%string.
Definition strength_emojis : list string := ["🔴"; "🟡"; "🟢"]%string.

(** The recommendation block: [if result == 0 / elif result == 1 / else]. *)
Inductive Tip := TipWeak | TipDecent | TipStrong.

Definition tip_of (result : Z) : Tip :=
  if Z.eqb result 0 then TipWeak
  else if Z.eqb result 1 then TipDecent
  else TipStrong.

(** The six metric cells. *)
Record Metrics := {
  m_length : nat;
  lowercase_pct : Q;
  uppercase_pct : Q;
  digit_pct : Q;
  special_pct : Q;
  m_char_types : nat
}.

Section Page.
Context {C : Type} `{PyChar C} (models : Models C).

(** [sum(1 for c in password if p(c)) / len(password) * 100] *)
Definition pct (p : C -> bool) (pw : list C) : Q :=
  inject_Z (Z.of_nat (count p pw)) / inject_Z (Z.of_nat (length pw)) * 100.

Definition metrics (pw : list C) : Metrics := {|
  m_length := length pw;
  lowercase_pct := pct islower pw;
  uppercase_pct := pct isupper pw;
  digit_pct := pct isdigit pw;
  special_pct := pct (fun c => negb (isalnum c)) pw;
  m_char_types := char_types pw
|}.

(** What the page shows: the warning, an [IndexError] raised while rendering
    the result card, or the report (colour, emoji and name of the card, before
    [.upper()]; the reason; the metrics; the recommendation block). *)
Inductive Outcome :=
| OWarning
| OIndexError
| OReport (color emoji name reason : string) (m : Metrics) (tip : Tip).

(** Rendering the result of [predict_password_strength] (lines 240-360). *)
Definition render (password : list C) (r : Z * list Q * string) : Outcome :=
  let '(result, _, reason) := r in
  match py_index strength_colors result, py_index strength_emojis result,
        py_index strength_names result with
  | Some col, Some emo, Some name =>
      OReport col emo name reason (metrics password) (tip_of result)
  | _, _, _ => OIndexError
  end.

(** [if not password: st.warning(...) else: ... predict_password_strength ...] *)
Definition analyze (password : list C) : M C Outcome :=
  if Nat.eqb (length password) 0 then ret OWarning
  else
    r <- predict_password_strength_m models password ;;
    ret (render password r).

Definition page (password : list C) : Outcome * list (Event C) :=
  analyze password [].

End Page.

(** Sample artefacts for concrete runs: a vectorizer producing one feature,
    and a classifier whose raw label is fixed. *)
Definition stub_models (lbl : Z) : Models ascii := {|
  transform := fun pw => [inject_Z (Z.of_nat (length pw))];
  predict := fun _ => lbl;
  predict_proba := fun _ => [1#4; 1#4; 1#2]%Q
|}.

Definition pw_of (s : string) : list ascii := list_ascii_of_string s.

Example ex_short : classify (stub_models 2) (pw_of "abc123"%string)
  = (0%Z, [1#4; 1#4; 1#2]%Q, "Too short (≤6 characters)"%string).
Proof. reflexivity. Qed.

Example ex_long : classify (stub_models 0) (pw_of "TheQuixy#234522wish"%string)
  = (2%Z, [1#4; 1#4; 1#2]%Q, "Long password (19 chars) with good diversity (4/4 types)"%string).
Proof. reflexivity. Qed.

Example ex_show_nat : show_nat 19 = "19"%string.
Proof. reflexivity. Qed.

(** ** Unfolding a call on a non-empty password *)

Section Facts.
Context {C : Type} `{PyChar C} (models : Models C).

Lemma run_nonempty (pw : list C) :
  pw <> [] ->
  run models pw =
    ((fst (apply_rules (length pw) (char_types pw) (raw_label models pw)),
      predict_proba models (features models pw),
      snd (apply_rules (length pw) (char_types pw) (raw_label models pw))),
     [ETransform pw; EPredict (features models pw);
      EPredictProba (features models pw)]).
Proof.
  intros Hne. destruct pw as [|c pw']; [contradiction|].
  unfold run, predict_password_strength_m, raw_label, features.
  cbn [length Nat.eqb].
  unfold bind, call_transform, call_predict, call_predict_proba, ret.
  cbn [app].
  destruct (apply_rules _ _ _) as [l r]; reflexivity.
Qed.

Lemma classify_nonempty (pw : list C) :
  pw <> [] ->
  classify models pw =
    (fst (apply_rules (length pw) (char_types pw) (raw_label models pw)),
     predict_proba models (features models pw),
     snd (apply_rules (length pw) (char_types pw) (raw_label models pw))).
Proof. intros Hne. unfold classify. rewrite run_nonempty by exact Hne. reflexivity. Qed.

Lemma label_nonempty (pw : list C) :
  pw <> [] ->
  label_of (classify models pw) =
    fst (apply_rules (length pw) (char_types pw) (raw_label models pw)).
Proof. intros Hne. rewrite classify_nonempty by exact Hne. reflexivity. Qed.

Lemma reason_nonempty (pw : list C) :
  pw <> [] ->
  reason_of (classify models pw) =
    snd (apply_rules (length pw) (char_types pw) (raw_label models pw)).
Proof. intros Hne. rewrite classify_nonempty by exact Hne. reflexivity. Qed.

Lemma nonempty_of_length (pw : list C) : 1 <= length pw -> pw <> [].
Proof. destruct pw; simpl; [lia | discriminate]. Qed.

End Facts.

Example ex_features :
  features (stub_models 0) (pw_of "aB1!"%string)
  = [inject_Z 4; inject_Z 4; 1#4; 1#4; 1#4]%Q.
Proof. reflexivity. Qed.

(** Thirty lowercase letters: one character class only. *)
Definition pw30 : list ascii := repeat "a"%char 30.

(** ** The claims *)

(** C1 (as stated, refuted): a 30-character password whose raw label is
    Weak is labelled Strong, not Normal, because rule 4 (length >= 30)
    precedes rule 5. *)
Lemma C1_counterexample :
  15 <= length pw30 /\ raw_label (stub_models 0) pw30 = 0%Z /\
  label_of (classify (stub_models 0) pw30) = 2%Z.
Proof. vm_compute. repeat split; lia. Qed.

(** C1 (amended): for a password of length >= 15 whose raw label is Weak,
    the label is never Weak: it is Strong when rule 3 (length >= 18 with at
    least 3 character types) or rule 4 (length >= 30) fires first, and
    Normal otherwise. *)
Lemma C1_long_not_weak {C} `{PyChar C} (models : Models C) (pw : list C) :
  15 <= length pw -> raw_label models pw = 0%Z ->
  label_of (classify models pw) =
    if (Nat.leb 18 (length pw) && Nat.leb 3 (char_types pw))
       || Nat.leb 30 (length pw) then 2%Z else 1%Z.
Proof.
  intros Hlen Hraw.
  rewrite label_nonempty by (apply nonempty_of_length; lia).
  rewrite Hraw. unfold apply_rules.
  destruct (Nat.leb_spec (length pw) 6); [lia|].
  destruct (Nat.leb_spec (length pw) 12); [lia|].
  destruct (Nat.leb_spec 18 (length pw)), (Nat.leb_spec 3 (char_types pw)),
    (Nat.leb_spec 30 (length pw)), (Nat.leb_spec 15 (length pw));
    simpl; try reflexivity; lia.
Qed.

Lemma C1_long_not_weak_witness :
  label_of (classify (stub_models 0) (pw_of "abcdefghijklmnop"%string)) = 1%Z.
Proof.
  rewrite (C1_long_not_weak (stub_models 0) (pw_of "abcdefghijklmnop"%string));
    [reflexivity | vm_compute; lia | reflexivity].
Defined.

(** C2: every password of length >= 30 is labelled Strong, whatever the raw
    label and the character types. *)
Lemma C2_very_long_strong {C} `{PyChar C} (models : Models C) (pw : list C) :
  30 <= length pw -> label_of (classify models pw) = 2%Z.
Proof.
  intros Hlen.
  rewrite label_nonempty by (apply nonempty_of_length; lia).
  unfold apply_rules.
  destruct (Nat.leb_spec (length pw) 6); [lia|].
  destruct (Nat.leb_spec (length pw) 12); [lia|].
  destruct (Nat.leb_spec 18 (length pw)); [|lia].
  destruct (Nat.leb_spec 30 (length pw)); [|lia].
  destruct (Nat.leb 3 (char_types pw)); reflexivity.
Qed.

Lemma C2_very_long_strong_witness :
  label_of (classify (stub_models 0) pw30) = 2%Z.
Proof. apply C2_very_long_strong. vm_compute. lia. Defined.

(** C3: the empty password yields exactly (0, [1.0, 0.0, 0.0],
    "Empty password") and no call to the vectorizer or the classifier is
    made. *)
Lemma C3_empty_short_circuit {C} `{PyChar C} (models : Models C) :
  classify models [] = (0%Z, [1; 0; 0]%Q, "Empty password"%string) /\
  calls models [] = [].
Proof. split; reflexivity. Qed.

(** C4: a password of length 1 to 6 is labelled Weak with reason
    "Too short (≤6 characters)", whatever the raw label. *)
Lemma C4_short_weak {C} `{PyChar C} (models : Models C) (pw : list C) :
  1 <= length pw <= 6 ->
  label_of (classify models pw) = 0%Z /\
  reason_of (classify models pw) = "Too short (≤6 characters)"%string.
Proof.
  intros Hlen.
  rewrite label_nonempty, reason_nonempty by (apply nonempty_of_length; lia).
  unfold apply_rules.
  destruct (Nat.leb_spec (length pw) 6); [|lia].
  split; reflexivity.
Qed.

Lemma C4_short_weak_witness :
  label_of (classify (stub_models 2) (pw_of "abc123"%string)) = 0%Z /\
  reason_of (classify (stub_models 2) (pw_of "abc123"%string))
    = "Too short (≤6 characters)"%string.
Proof. apply C4_short_weak. vm_compute. lia. Defined.

(** C5: a password of length 7 to 12 is never labelled Strong: a raw Strong
    becomes Normal with reason "Too short to be strong (≤12 chars)", and any
    other raw label (Weak or Normal in particular) stands. *)
Lemma C5_medium_not_strong {C} `{PyChar C} (models : Models C) (pw : list C) :
  7 <= length pw <= 12 ->
  label_of (classify models pw) <> 2%Z /\
  (raw_label models pw = 2%Z ->
     label_of (classify models pw) = 1%Z /\
     reason_of (classify models pw)
       = "Too short to be strong (≤12 chars)"%string) /\
  (raw_label models pw <> 2%Z ->
     label_of (classify models pw) = raw_label models pw).
Proof.
  intros Hlen.
  rewrite label_nonempty, reason_nonempty by (apply nonempty_of_length; lia).
  unfold apply_rules.
  destruct (Nat.leb_spec (length pw) 6); [lia|].
  destruct (Nat.leb_spec (length pw) 12); [|lia].
  destruct (Nat.leb_spec 18 (length pw)); [lia|].
  destruct (Nat.leb_spec 30 (length pw)); [lia|].
  destruct (Nat.leb_spec 15 (length pw)); [lia|].
  destruct (Z.eqb_spec (raw_label models pw) 2) as [E|E]; simpl.
  - split; [discriminate|].
    split; [intros _; split; reflexivity | intros E'; contradiction].
  - split; [exact E|].
    split; [intros E'; contradiction | intros _; reflexivity].
Qed.

Lemma C5_medium_not_strong_witness :
  label_of (classify (stub_models 2) (pw_of "Password123!"%string)) = 1%Z.
Proof.
  destruct (C5_medium_not_strong (stub_models 2) (pw_of "Password123!"%string)
              ltac:(vm_compute; lia)) as [_ [Hs _]].
  apply Hs. reflexivity.
Defined.

(** C6: a password of length >= 18 with at least 3 character types is
    labelled Strong, whatever the raw label, and the reason contains the
    length and the number of character types (in decimal). *)
Lemma C6_long_diverse_strong {C} `{PyChar C} (models : Models C) (pw : list C) :
  18 <= length pw -> 3 <= char_types pw ->
  label_of (classify models pw) = 2%Z /\
  exists pre mid post,
    reason_of (classify models pw)
      = (pre ++ show_nat (length pw) ++ mid ++ show_nat (char_types pw) ++ post)%string.
Proof.
  intros Hlen Hct.
  rewrite label_nonempty, reason_nonempty by (apply nonempty_of_length; lia).
  unfold apply_rules.
  destruct (Nat.leb_spec (length pw) 6); [lia|].
  destruct (Nat.leb_spec (length pw) 12); [lia|].
  destruct (Nat.leb_spec 18 (length pw)); [|lia].
  destruct (Nat.leb_spec 3 (char_types pw)); [|lia].
  simpl. split; [reflexivity|].
  exists "Long password ("%string, " chars) with good diversity ("%string,
    "/4 types)"%string.
  reflexivity.
Qed.

Definition pw_quixy : list ascii := pw_of "TheQuixy#234522wish"%string.

Lemma C6_long_diverse_strong_witness :
  label_of (classify (stub_models 0) pw_quixy) = 2%Z /\
  exists pre mid post,
    reason_of (classify (stub_models 0) pw_quixy)
      = (pre ++ "19" ++ mid ++ "4" ++ post)%string.
Proof.
  assert (E1 : show_nat (length pw_quixy) = "19"%string) by reflexivity.
  assert (E2 : show_nat (char_types pw_quixy) = "4"%string) by reflexivity.
  rewrite <- E1, <- E2.
  apply (C6_long_diverse_strong (stub_models 0) pw_quixy); vm_compute; lia.
Defined.

(** C7: on a non-empty password the probabilities returned are exactly the
    output of [predict_proba] on the feature vector, whichever rule fires;
    the rule chain only decides the label and the reason. *)
Lemma C7_probabilities_unmodified {C} `{PyChar C} (models : Models C) (pw : list C) :
  pw <> [] ->
  probs_of (classify models pw) = predict_proba models (features models pw) /\
  (label_of (classify models pw), reason_of (classify models pw))
    = apply_rules (length pw) (char_types pw) (raw_label models pw).
Proof.
  intros Hne. rewrite classify_nonempty by exact Hne.
  split; [reflexivity|].
  unfold label_of, reason_of; simpl.
  destruct (apply_rules _ _ _); reflexivity.
Qed.

Lemma C7_probabilities_unmodified_witness :
  probs_of (classify (stub_models 0) pw30) = [1#4; 1#4; 1#2]%Q.
Proof.
  apply (C7_probabilities_unmodified (stub_models 0) pw30). discriminate.
Defined.

(** C8: on a non-empty password the classifier receives (through both
    [predict] and [predict_proba]) the vectorizer's output followed by
    exactly four scalars, in the order length, lowercase fraction,
    uppercase fraction, digit fraction, each fraction being the count of
    matching characters divided by the length. *)
Lemma C8_feature_vector_layout {C} `{PyChar C} (models : Models C) (pw : list C) :
  pw <> [] ->
  let n := inject_Z (Z.of_nat (length pw)) in
  let x := transform models pw ++
             [n; inject_Z (Z.of_nat (length (filter islower pw))) / n;
                 inject_Z (Z.of_nat (length (filter isupper pw))) / n;
                 inject_Z (Z.of_nat (length (filter isdigit pw))) / n]%Q in
  calls models pw = [ETransform pw; EPredict x; EPredictProba x].
Proof.
  intros Hne n x. unfold calls. rewrite run_nonempty by exact Hne.
  reflexivity.
Qed.

Lemma C8_feature_vector_layout_witness :
  calls (stub_models 0) (pw_of "aB1!"%string)
  = [ETransform (pw_of "aB1!"%string);
     EPredict ([inject_Z 4] ++ [inject_Z 4; inject_Z 1 / inject_Z 4;
                                inject_Z 1 / inject_Z 4; inject_Z 1 / inject_Z 4])%Q;
     EPredictProba ([inject_Z 4] ++ [inject_Z 4; inject_Z 1 / inject_Z 4;
                                inject_Z 1 / inject_Z 4; inject_Z 1 / inject_Z 4])%Q].
Proof.
  pose proof (C8_feature_vector_layout (stub_models 0) (pw_of "aB1!"%string)
                ltac:(discriminate)) as Hc.
  cbv zeta in Hc. rewrite Hc. reflexivity.
Defined.

(** C9: for a password of length 13 or 14 no rule fires: the raw label is
    returned unchanged, with reason "Model prediction". *)
Lemma C9_no_rule_13_14 {C} `{PyChar C} (models : Models C) (pw : list C) :
  length pw = 13 \/ length pw = 14 ->
  label_of (classify models pw) = raw_label models pw /\
  reason_of (classify models pw) = "Model prediction"%string.
Proof.
  intros Hlen.
  rewrite label_nonempty, reason_nonempty by (apply nonempty_of_length; lia).
  unfold apply_rules.
  destruct (Nat.leb_spec (length pw) 6); [lia|].
  destruct (Nat.leb_spec (length pw) 12); [lia|].
  destruct (Nat.leb_spec 18 (length pw)); [lia|].
  destruct (Nat.leb_spec 30 (length pw)); [lia|].
  destruct (Nat.leb_spec 15 (length pw)); [lia|].
  simpl. split; reflexivity.
Qed.

Lemma C9_no_rule_13_14_witness :
  label_of (classify (stub_models 0) (pw_of "abcdefghijklm"%string)) = 0%Z /\
  reason_of (classify (stub_models 0) (pw_of "abcdefghijklm"%string))
    = "Model prediction"%string.
Proof.
  apply (C9_no_rule_13_14 (stub_models 0) (pw_of "abcdefghijklm"%string)).
  left. reflexivity.
Defined.

(** C10: once the length exceeds 12, a raw Strong label is never demoted. *)
Lemma C10_strong_kept_past_12 {C} `{PyChar C} (models : Models C) (pw : list C) :
  13 <= length pw -> raw_label models pw = 2%Z ->
  label_of (classify models pw) = 2%Z.
Proof.
  intros Hlen Hraw.
  rewrite label_nonempty by (apply nonempty_of_length; lia).
  rewrite Hraw. unfold apply_rules.
  destruct (Nat.leb_spec (length pw) 6); [lia|].
  destruct (Nat.leb_spec (length pw) 12); [lia|].
  destruct (Nat.leb 18 (length pw) && Nat.leb 3 (char_types pw)); [reflexivity|].
  destruct (Nat.leb 30 (length pw)); [reflexivity|].
  rewrite andb_false_r. reflexivity.
Qed.

Lemma C10_strong_kept_past_12_witness :
  label_of (classify (stub_models 2) (pw_of "abcdefghijklmn"%string)) = 2%Z.
Proof.
  apply C10_strong_kept_past_12; [vm_compute; lia | reflexivity].
Defined.

(** ** Further properties of the engine and of the page handler *)

Ltac pick_case :=
  solve [ left; split; [reflexivity | lia]
        | right; pick_case
        | split; [reflexivity | lia] ].

Section Extras.
Context {C : Type} `{PyChar C} (models : Models C).

Lemma page_nonempty (pw : list C) :
  pw <> [] -> page models pw = (render pw (classify models pw), calls models pw).
Proof.
  intros Hne. unfold page, analyze, classify, calls.
  destruct pw as [|c pw']; [contradiction|].
  cbn [length Nat.eqb]. unfold bind, ret, run.
  destruct (predict_password_strength_m models (c :: pw') []); reflexivity.
Qed.

Lemma apply_rules_label_cases (n ct : nat) (raw : Z) :
  fst (apply_rules n ct raw) = 0%Z /\ n <= 6 \/
  fst (apply_rules n ct raw) = 1%Z /\ 7 <= n <= 12 /\ raw = 2%Z \/
  fst (apply_rules n ct raw) = 2%Z /\ 18 <= n /\ 3 <= ct \/
  fst (apply_rules n ct raw) = 2%Z /\ 30 <= n \/
  fst (apply_rules n ct raw) = 1%Z /\ 15 <= n <= 29 /\ raw = 0%Z \/
  fst (apply_rules n ct raw) = raw /\ 7 <= n /\
    (n <= 12 -> raw <> 2%Z) /\ ~ (18 <= n /\ 3 <= ct) /\ n < 30 /\
    (15 <= n -> raw <> 0%Z).
Proof.
  unfold apply_rules.
  destruct (Nat.leb_spec n 6), (Nat.leb_spec n 12), (Z.eqb_spec raw 2),
    (Nat.leb_spec 18 n), (Nat.leb_spec 3 ct), (Nat.leb_spec 30 n),
    (Nat.leb_spec 15 n), (Z.eqb_spec raw 0); simpl; pick_case.
Qed.

Lemma label_cases (pw : list C) :
  let n := length pw in
  let ct := char_types pw in
  let raw := raw_label models pw in
  let l := label_of (classify models pw) in
  n = 0 /\ l = 0%Z \/
  l = 0%Z /\ 1 <= n <= 6 \/
  l = 1%Z /\ 7 <= n <= 12 /\ raw = 2%Z \/
  l = 2%Z /\ 18 <= n /\ 3 <= ct \/
  l = 2%Z /\ 30 <= n \/
  l = 1%Z /\ 15 <= n <= 29 /\ raw = 0%Z \/
  l = raw /\ 7 <= n /\ (n <= 12 -> raw <> 2%Z) /\ ~ (18 <= n /\ 3 <= ct) /\
    n < 30 /\ (15 <= n -> raw <> 0%Z).
Proof.
  intros n ct raw l. subst n ct raw l.
  destruct pw as [|c pw']; [left; split; reflexivity|].
  right. rewrite label_nonempty by discriminate.
  destruct (apply_rules_label_cases (length (c :: pw')) (char_types (c :: pw'))
              (raw_label models (c :: pw'))) as [[E ?]|Hr].
  - left. split; [exact E | simpl in *; lia].
  - right. exact Hr.
Qed.

(** X4: if the classifier's raw label is one of 0, 1, 2, so is the returned
    label, for every password. *)
Lemma X_label_in_range (pw : list C) :
  (0 <= raw_label models pw <= 2)%Z ->
  (0 <= label_of (classify models pw) <= 2)%Z.
Proof.
  intros Hr.
  destruct (label_cases pw) as [[_ E]|[[E _]|[[E _]|[[E _]|[[E _]|[[E _]|[E _]]]]]]];
    rewrite E; lia.
Qed.

(** X7: a password of 15 characters or more is never labelled Weak, whatever
    the classifier says. *)
Lemma X_long_never_weak (pw : list C) :
  15 <= length pw -> label_of (classify models pw) <> 0%Z.
Proof.
  intros Hlen.
  destruct (label_cases pw) as [[? _]|[[_ ?]|[[E ?]|[[E _]|[[E _]|[[E _]|[E Hr]]]]]]];
    try lia; rewrite E; discriminate.
Qed.

(** X8: past 6 characters, the label Weak only ever comes from the
    classifier: a Weak label means the raw label was Weak. *)
Lemma X_weak_from_model (pw : list C) :
  7 <= length pw -> label_of (classify models pw) = 0%Z -> raw_label models pw = 0%Z.
Proof.
  intros Hlen Hw.
  destruct (label_cases pw) as [[? _]|[[_ ?]|[[E _]|[[E _]|[[E _]|[[E _]|[E _]]]]]]];
    try lia; rewrite Hw in E; try discriminate; symmetry; exact E.
Qed.

(** X9: the label Strong is only ever given to a password of at least 13
    characters. *)
Lemma X_strong_needs_13 (pw : list C) :
  label_of (classify models pw) = 2%Z -> 13 <= length pw.
Proof.
  intros Hs.
  destruct (label_cases pw) as [[_ E]|[[E _]|[[E _]|[[_ ?]|[[_ ?]|[[_ ?]|[E Hr]]]]]]];
    lia.
Qed.

(** X10: from 13 characters on, the rules only ever raise the label: with a
    raw label in 0..2 the returned label is at least the raw one. *)
Lemma X_no_demotion_past_12 (pw : list C) :
  13 <= length pw -> (0 <= raw_label models pw <= 2)%Z ->
  (raw_label models pw <= label_of (classify models pw))%Z.
Proof.
  intros Hlen Hr.
  destruct (label_cases pw) as [[? _]|[[_ ?]|[[_ ?]|[[E _]|[[E _]|[[E (_ & E0)]|[E _]]]]]]];
    try lia.
Qed.

(** X5: the reason is never the empty string. *)
Lemma X_reason_nonempty (pw : list C) :
  reason_of (classify models pw) <> EmptyString.
Proof.
  destruct pw as [|c pw']; [discriminate|].
  rewrite reason_nonempty by discriminate. unfold apply_rules.
  repeat match goal with |- context [if ?b then _ else _] => destruct b end;
    simpl; discriminate.
Qed.



(** X2: with a raw label in 0..2, the page for a non-empty password renders
    the card (colour, emoji, name) and the recommendation block of the same
    tier as the returned label, with the returned reason. *)
Lemma X_page_card_matches_label (pw : list C) :
  pw <> [] -> (0 <= raw_label models pw <= 2)%Z ->
  let l := label_of (classify models pw) in
  let rs := reason_of (classify models pw) in
  l = 0%Z /\ fst (page models pw) =
    OReport "weak" "🔴" "Weak" rs (metrics pw) TipWeak \/
  l = 1%Z /\ fst (page models pw) =
    OReport "normal" "🟡" "Normal" rs (metrics pw) TipDecent \/
  l = 2%Z /\ fst (page models pw) =
    OReport "strong" "🟢" "Strong" rs (metrics pw) TipStrong.
Proof.
  intros Hne Hr l rs.
  pose proof (X_label_in_range pw Hr) as Hl. fold l in Hl.
  rewrite page_nonempty by exact Hne. simpl fst.
  subst l rs. unfold render, label_of, reason_of in *.
  destruct (classify models pw) as [[lab ps] r]. simpl in *.
  assert (Hc : (lab = 0 \/ lab = 1 \/ lab = 2)%Z) by lia.
  destruct Hc as [E|[E|E]]; subst lab;
    [left | right; left | right; right]; split; reflexivity.
Qed.

(** X3: a non-empty password of at most 6 characters gets the Weak card, the
    reason "Too short (≤6 characters)" and the Weak recommendations, whatever
    the classifier returns (even a label outside 0..2). *)
Lemma X_page_short_weak (pw : list C) :
  1 <= length pw <= 6 ->
  fst (page models pw) =
    OReport "weak" "🔴" "Weak" "Too short (≤6 characters)" (metrics pw) TipWeak.
Proof.
  intros Hlen.
  rewrite page_nonempty by (apply nonempty_of_length; lia).
  rewrite classify_nonempty by (apply nonempty_of_length; lia).
  unfold apply_rules. destruct (Nat.leb_spec (length pw) 6); [|lia].
  reflexivity.
Qed.

(** X11: for a non-empty password, each character-class fraction handed to
    the classifier lies between 0 and 1. *)
Lemma X_fraction_bounds (pw : list C) (p : C -> bool) :
  pw <> [] -> (0 <= frac p pw <= 1)%Q.
Proof.
  intros Hne. unfold frac, count.
  assert (Hlen : 0 < length pw) by (destruct pw; [contradiction | simpl; lia]).
  pose proof (filter_length_le p pw) as Hf.
  assert (Hpos : (0 < inject_Z (Z.of_nat (length pw)))%Q)
    by (unfold Qlt; simpl; lia).
  split.
  - apply Qle_shift_div_l; [exact Hpos|]. unfold Qle; simpl; lia.
  - apply Qle_shift_div_r; [exact Hpos|]. rewrite Qmult_1_l. rewrite <- Zle_Qle. lia.
Qed.

End Extras.



(** ** ASCII passwords: the four character classes partition the password *)

Lemma ascii_one_class (c : ascii) :
  (if islower c then 1 else 0) + (if isupper c then 1 else 0)
  + (if isdigit c then 1 else 0) + (if negb (isalnum c) then 1 else 0) = 1.
Proof.
  simpl. unfold ascii_in.
  destruct (Nat.leb_spec 97 (nat_of_ascii c)), (Nat.leb_spec (nat_of_ascii c) 122),
    (Nat.leb_spec 65 (nat_of_ascii c)), (Nat.leb_spec (nat_of_ascii c) 90),
    (Nat.leb_spec 48 (nat_of_ascii c)), (Nat.leb_spec (nat_of_ascii c) 57);
    simpl; lia.
Qed.





(** X13: a non-empty ASCII password always has at least one of the four
    character types. *)
Lemma X_ascii_char_types_pos (pw : list ascii) :
  pw <> [] -> 1 <= char_types pw.
Proof.
  intros Hne. destruct pw as [|c pw]; [contradiction|].
  pose proof (ascii_one_class c) as H1.
  unfold char_types. cbn [existsb].
  destruct (islower c), (isupper c), (isdigit c), (negb (isalnum c));
    cbn [orb] in *; lia.
Qed.

(** A label of -1 wraps around to the last entry of each list. *)
Example ex_page_negative_label :
  fst (page (stub_models (-1)) (pw_of "abcdefghijklm"%string)) =
    OReport "strong" "🟢" "Strong" "Model prediction"
      (metrics (pw_of "abcdefghijklm"%string)) TipStrong.
Proof. reflexivity. Qed.

(** ** Witnesses of the properties above on concrete inputs *)

Lemma X_label_in_range_witness :
  (0 <= label_of (classify (stub_models 1) pw_quixy) <= 2)%Z.
Proof.
  apply X_label_in_range.
  assert (E : raw_label (stub_models 1) pw_quixy = 1%Z) by reflexivity.
  rewrite E. lia.
Defined.

Lemma X_long_never_weak_witness :
  label_of (classify (stub_models 0) (pw_of "abcdefghijklmnop"%string)) <> 0%Z.
Proof. apply X_long_never_weak. vm_compute. lia. Defined.

Lemma X_weak_from_model_witness :
  raw_label (stub_models 0) (pw_of "abcdefghijklm"%string) = 0%Z.
Proof. apply X_weak_from_model; [vm_compute; lia | reflexivity]. Defined.

Lemma X_strong_needs_13_witness : 13 <= length pw30.
Proof. apply (X_strong_needs_13 (stub_models 0)). reflexivity. Defined.

Lemma X_no_demotion_past_12_witness :
  (raw_label (stub_models 1) (pw_of "abcdefghijklm"%string)
   <= label_of (classify (stub_models 1) (pw_of "abcdefghijklm"%string)))%Z.
Proof.
  apply X_no_demotion_past_12; [vm_compute; lia|].
  assert (E : raw_label (stub_models 1) (pw_of "abcdefghijklm"%string) = 1%Z)
    by reflexivity.
  rewrite E. lia.
Defined.


Lemma X_page_card_matches_label_witness :
  let pw := pw_of "Password123!"%string in
  let l := label_of (classify (stub_models 2) pw) in
  let rs := reason_of (classify (stub_models 2) pw) in
  l = 0%Z /\ fst (page (stub_models 2) pw) =
    OReport "weak" "🔴" "Weak" rs (metrics pw) TipWeak \/
  l = 1%Z /\ fst (page (stub_models 2) pw) =
    OReport "normal" "🟡" "Normal" rs (metrics pw) TipDecent \/
  l = 2%Z /\ fst (page (stub_models 2) pw) =
    OReport "strong" "🟢" "Strong" rs (metrics pw) TipStrong.
Proof.
  apply X_page_card_matches_label; [discriminate|].
  assert (E : raw_label (stub_models 2) (pw_of "Password123!"%string) = 2%Z)
    by reflexivity.
  rewrite E. lia.
Defined.

Lemma X_page_short_weak_witness :
  fst (page (stub_models 7) (pw_of "abc123"%string)) =
    OReport "weak" "🔴" "Weak" "Too short (≤6 characters)"
      (metrics (pw_of "abc123"%string)) TipWeak.
Proof. apply X_page_short_weak. vm_compute. lia. Defined.


Lemma X_fraction_bounds_witness :
  (0 <= frac islower pw_quixy <= 1)%Q.
Proof. apply X_fraction_bounds. discriminate. Defined.


Lemma X_ascii_char_types_pos_witness : 1 <= char_types pw30.
Proof. apply X_ascii_char_types_pos. discriminate. Defined.
